(** * Product Inventory API: a shallow embedding of [src/main.py]

    The service keeps its products in a process-wide Python [dict]
    ([fake_db]) next to an integer counter ([product_counter]).  The
    embedding keeps both in an explicit state record that every endpoint
    takes and returns.  A Python [dict] iterates in insertion order, and the
    listing endpoint depends on that order, so the store is an association
    list rather than an extensional finite map. *)

From Stdlib Require Import ZArith String PrimFloat DecimalString.
From stdpp Require Import base numbers list sorting strings gmap.

Local Open Scope Z_scope.

(** ** Insertion-ordered dictionaries with integer keys *)

Module PyDict.
Section dict.
Context {V : Type}.

(** [k in d] / [d[k]] *)
Fixpoint get (k : Z) (d : list (Z * V)) : option V :=
  match d with
  | [] => None
  | (k', v) :: d' => if decide (k' = k) then Some v else get k d'
  end.

Definition contains (k : Z) (d : list (Z * V)) : bool :=
  match get k d with Some _ => true | None => false end.

(** [d[k] = v]: an existing key keeps its position, a new key goes last. *)
Fixpoint set (k : Z) (v : V) (d : list (Z * V)) : list (Z * V) :=
  match d with
  | [] => [(k, v)]
  | (k', v') :: d' =>
      if decide (k' = k) then (k', v) :: d' else (k', v') :: set k v d'
  end.

(** [del d[k]]; the service only deletes keys it has found in the dict
    (on a missing key Python raises [KeyError]). *)
Fixpoint del (k : Z) (d : list (Z * V)) : list (Z * V) :=
  match d with
  | [] => []
  | (k', v') :: d' =>
      if decide (k' = k) then d' else (k', v') :: del k d'
  end.

(** [d.keys()] and [d.values()], in iteration order. *)
Definition keys (d : list (Z * V)) : list Z := d.*1.
Definition values (d : list (Z * V)) : list V := d.*2.

(** A Python dict holds each key once. *)
Definition wf (d : list (Z * V)) : Prop := NoDup (keys d).
End dict.
End PyDict.

(** ** Python list slicing [l[start:stop]] (step 1) *)

Definition slice_index (len i : Z) : Z :=
  if i <? 0 then Z.max (len + i) 0 else Z.min i len.

Definition py_slice {A} (l : list A) (start stop : Z) : list A :=
  let len := Z.of_nat (length l) in
  let lo := slice_index len start in
  let hi := slice_index len stop in
  take (Z.to_nat (hi - lo)) (drop (Z.to_nat lo) l).

(** ** Pydantic models *)

(** [datetime] values are opaque to the service; they are kept as a count
    of microseconds. *)
Definition datetime := Z.

(** [ProductCreate(ProductBase)]: the four declared fields.  A [str] is a
    sequence of characters and [String.length] counts them, as [len] does. *)
Module ProductCreate.
Record t := mk {
  name : string;
  description : option string;
  price : float;
  in_stock : bool
}.
End ProductCreate.

(** [Product(ProductBase)] adds [id] and [created_at]. *)
Module Product.
Record t := mk {
  id : Z;
  created_at : datetime;
  name : string;
  description : option string;
  price : float;
  in_stock : bool
}.
End Product.

(** Field constraints of [ProductBase]:
    [name]: [min_length=1, max_length=100]; [price]: [gt=0], a comparison
    of binary64 floats. *)
Definition name_ok (name : string) : bool :=
  (1 <=? String.length name)%nat && (String.length name <=? 100)%nat.

Definition price_ok (price : float) : bool := PrimFloat.ltb PrimFloat.zero price.

Definition ProductBase_ok (name : string) (price : float) : bool :=
  name_ok name && price_ok price.

(** ** Results of an endpoint *)

Inductive error :=
| ValidationError                (* request validation failed: 422 *)
| NotFound (detail : string)     (* HTTPException(status_code=404) *)
| ServerError.                   (* exception escaping a handler: 500 *)

Inductive result (A : Type) :=
| Ok (a : A)
| Err (e : error).
Arguments Ok {A} a.
Arguments Err {A} e.

(** ** The in-memory "database" *)

Record state := mkState {
  fake_db : list (Z * Product.t);
  product_counter : Z
}.

Definition init : state := {| fake_db := []; product_counter := 1 |}.

(** [Product(id=..., created_at=..., **product.model_dump())]: the
    constructor validates the [ProductBase] constraints again. *)
Definition Product_new (id : Z) (created_at : datetime) (product : ProductCreate.t)
  : option Product.t :=
  if ProductBase_ok (ProductCreate.name product) (ProductCreate.price product)
  then Some {| Product.id := id;
               Product.created_at := created_at;
               Product.name := ProductCreate.name product;
               Product.description := ProductCreate.description product;
               Product.price := ProductCreate.price product;
               Product.in_stock := ProductCreate.in_stock product |}
  else None.

(** ** API endpoints

    Every endpoint takes the state and returns its result with the state
    after the call.  The constraints declared on path and query parameters
    ([Path(gt=0)], [Query(ge=0)], ...) and on the request body are checked
    before the handler's body runs and produce a [ValidationError]. *)

(** [GET /products/] *)
Definition read_products (skip limit : Z) (in_stock : option bool) (st : state)
  : result (list Product.t) * state :=
  if (0 <=? skip) && (1 <=? limit) && (limit <=? 100) then
    let filtered_items := PyDict.values (fake_db st) in
    let filtered_items :=
      match in_stock with
      | Some b =>
          List.filter (λ item, Bool.eqb (Product.in_stock item) b) filtered_items
      | None => filtered_items
      end in
    (Ok (py_slice filtered_items skip (skip + limit)), st)
  else (Err ValidationError, st).

(** [GET /products/{product_id}] *)
Definition read_product (product_id : Z) (st : state) : result Product.t * state :=
  if 0 <? product_id then
    if negb (PyDict.contains product_id (fake_db st)) then
      (Err (NotFound "Product not found"), st)
    else
      match PyDict.get product_id (fake_db st) with
      | Some p => (Ok p, st)
      | None => (Err ServerError, st)        (* KeyError *)
      end
  else (Err ValidationError, st).

(** [POST /products/]; [now] is what [datetime.now()] reads during the call. *)
Definition create_product (product : ProductCreate.t) (now : datetime) (st : state)
  : result Product.t * state :=
  if ProductBase_ok (ProductCreate.name product) (ProductCreate.price product) then
    match Product_new (product_counter st) now product with
    | Some db_product =>
        (Ok db_product,
         {| fake_db := PyDict.set (product_counter st) db_product (fake_db st);
            product_counter := product_counter st + 1 |})
    | None => (Err ServerError, st)
    end
  else (Err ValidationError, st).

(** [str(product_id)] *)
Definition str_int (n : Z) : string := NilZero.string_of_int (Z.to_int n).

Definition deleted_message (product_id : Z) : string :=
  "Product " +:+ str_int product_id +:+ " deleted successfully".

(** [DELETE /products/{product_id}]; the result is the ["message"] entry of
    the returned dict. *)
Definition delete_product (product_id : Z) (st : state) : result string * state :=
  if 0 <? product_id then
    if negb (PyDict.contains product_id (fake_db st)) then
      (Err (NotFound "Product not found"), st)
    else
      (Ok (deleted_message product_id),
       {| fake_db := PyDict.del product_id (fake_db st);
          product_counter := product_counter st |})
  else (Err ValidationError, st).

(** ** Sequences of requests *)

Inductive request :=
| GetProducts (skip limit : Z) (in_stock : option bool)
| GetProduct (product_id : Z)
| PostProduct (product : ProductCreate.t) (now : datetime)
| DeleteProduct (product_id : Z).

Inductive response :=
| Listed (items : list Product.t)
| Found (p : Product.t)
| Created (p : Product.t)
| Deleted (message : string)
| Failed (e : error).

Definition respond {A} (f : A → response) (r : result A * state) : response * state :=
  match r.1 with
  | Ok a => (f a, r.2)
  | Err e => (Failed e, r.2)
  end.

Definition handle (req : request) (st : state) : response * state :=
  match req with
  | GetProducts skip limit in_stock => respond Listed (read_products skip limit in_stock st)
  | GetProduct product_id => respond Found (read_product product_id st)
  | PostProduct product now => respond Created (create_product product now st)
  | DeleteProduct product_id => respond Deleted (delete_product product_id st)
  end.

(** The responses to a sequence of requests served in order, and the state
    left behind. *)
Fixpoint run (reqs : list request) (st : state) : list response * state :=
  match reqs with
  | [] => ([], st)
  | req :: reqs' =>
      let (r, st') := handle req st in
      let (rs, st'') := run reqs' st' in
      (r :: rs, st'')
  end.

(** The products handed out by the successful creates of a trace, oldest
    first. *)
Fixpoint created (trace : list response) : list Product.t :=
  match trace with
  | [] => []
  | Created p :: trace' => p :: created trace'
  | _ :: trace' => created trace'
  end.

(** The store invariant. *)
Record store_inv (st : state) : Prop := {
  inv_counter : 1 ≤ product_counter st;
  inv_keys : ∀ k, k ∈ PyDict.keys (fake_db st) → 1 ≤ k < product_counter st;
  inv_ids : ∀ k p, PyDict.get k (fake_db st) = Some p → Product.id p = k;
  inv_wf : PyDict.wf (fake_db st);
}.

(** What serving one request can do to the state: nothing, one insertion
    under the counter's value, or one removal. *)
Inductive effect (st : state) : response → state → Prop :=
| effect_none r :
    (∀ p, r ≠ Created p) → effect st r st
| effect_create p :
    Product.id p = product_counter st →
    effect st (Created p)
      {| fake_db := PyDict.set (product_counter st) p (fake_db st);
         product_counter := product_counter st + 1 |}
| effect_delete k msg :
    PyDict.contains k (fake_db st) = true →
    effect st (Deleted msg)
      {| fake_db := PyDict.del k (fake_db st);
         product_counter := product_counter st |}.

(** ** Request bodies *)

(** A parsed JSON value. *)
#[warnings="-register-all"]
Inductive json :=
| JNull
| JBool (b : bool)
| JNumber (x : float)
| JString (s : string)
| JArray (items : list json)
| JObject (fields : list (string * json)).

(** The names of the fields [ProductCreate] declares. *)
Definition ProductCreate_fields : list string :=
  ["name"; "description"; "price"; "in_stock"]%string.

Section request_body.
(** How pydantic converts a JSON value to a [str], a [float] and a [bool];
    [None] when it refuses the value. *)
Variable as_str : json → option string.
Variable as_float : json → option float.
Variable as_bool : json → option bool.

(** Validation of a JSON object against [ProductCreate].  The declared
    fields are looked up by name: [name] and [price] are required,
    [description] defaults to [None] and accepts [null], [in_stock]
    defaults to [True].  The model sets no [extra] policy, so keys that are
    not fields are not looked at. *)
Definition ProductCreate_validate (body : gmap string json) : option ProductCreate.t :=
  name ← body !! "name"%string ≫= as_str;
  description ←
    match body !! "description"%string with
    | None | Some JNull => Some None
    | Some v => Some <$> as_str v
    end;
  price ← body !! "price"%string ≫= as_float;
  in_stock ←
    match body !! "in_stock"%string with
    | None => Some true
    | Some v => as_bool v
    end;
  if ProductBase_ok name price
  then Some (ProductCreate.mk name description price in_stock)
  else None.

(** [POST /products/] on the raw body. *)
Definition post_products (body : gmap string json) (now : datetime) (st : state)
  : result Product.t * state :=
  match ProductCreate_validate body with
  | Some product => create_product product now st
  | None => (Err ValidationError, st)
  end.
End request_body.

(** Converters that accept a JSON value of the field's own type only. *)
Definition exact_str (v : json) : option string :=
  match v with JString s => Some s | _ => None end.
Definition exact_float (v : json) : option float :=
  match v with JNumber x => Some x | _ => None end.
Definition exact_bool (v : json) : option bool :=
  match v with JBool b => Some b | _ => None end.

(** ** Specification vocabulary and sample data *)

(** The products a listing selects before it paginates. *)
Definition selected (in_stock : option bool) (l : list Product.t) : list Product.t :=
  match in_stock with
  | Some b => filter (λ item, Product.in_stock item = b) l
  | None => l
  end.

(** The products of a creation history that are still in the store. *)
Definition still_stored (st : state) (history : list Product.t) : list Product.t :=
  filter (λ p, Product.id p ∈ PyDict.keys (fake_db st)) history.

(** Five valid creates, the third out of stock. *)
Definition sample_input (name : string) (in_stock : bool) : ProductCreate.t :=
  {| ProductCreate.name := name;
     ProductCreate.description := None;
     ProductCreate.price := 10%float;
     ProductCreate.in_stock := in_stock |}.

Definition sample_product (id : Z) (name : string) (in_stock : bool) : Product.t :=
  {| Product.id := id;
     Product.created_at := 1000 + id;
     Product.name := name;
     Product.description := None;
     Product.price := 10%float;
     Product.in_stock := in_stock |}.

Definition five_creates : list request :=
  [ PostProduct (sample_input "a" true) 1001;
    PostProduct (sample_input "b" true) 1002;
    PostProduct (sample_input "c" false) 1003;
    PostProduct (sample_input "d" true) 1004;
    PostProduct (sample_input "e" true) 1005 ].

Definition five_products : state := (run five_creates init).2.

(** A create body with a client-chosen [id] and [created_at]. *)
Definition sample_body : gmap string json :=
  <["created_at" := JString "1999-01-01T00:00:00"]>
    (<["name" := JString "f"]> (<["price" := JNumber 10%float]> ∅)).

(** ** Outcomes of a request *)

(** How a request can end: a listing, a product found, a product created
    (the only way an entry is added), a product deleted (the only way an
    entry is removed), or a client error that leaves the state alone. *)
Inductive outcome (st : state) : request → response → state → Prop :=
| outcome_listed skip limit in_stock items :
    read_products skip limit in_stock st = (Ok items, st) →
    outcome st (GetProducts skip limit in_stock) (Listed items) st
| outcome_found product_id p :
    0 < product_id → PyDict.get product_id (fake_db st) = Some p →
    outcome st (GetProduct product_id) (Found p) st
| outcome_created product now :
    ProductBase_ok (ProductCreate.name product) (ProductCreate.price product) = true →
    let p := Product.mk (product_counter st) now (ProductCreate.name product)
               (ProductCreate.description product) (ProductCreate.price product)
               (ProductCreate.in_stock product) in
    outcome st (PostProduct product now) (Created p)
      {| fake_db := PyDict.set (product_counter st) p (fake_db st);
         product_counter := product_counter st + 1 |}
| outcome_deleted product_id :
    0 < product_id → PyDict.contains product_id (fake_db st) = true →
    outcome st (DeleteProduct product_id) (Deleted (deleted_message product_id))
      {| fake_db := PyDict.del product_id (fake_db st);
         product_counter := product_counter st |}
| outcome_failed req e :
    e ≠ ServerError → outcome st req (Failed e) st.

(** The requests that can change the state. *)
Definition is_write (req : request) : bool :=
  match req with
  | PostProduct _ _ | DeleteProduct _ => true
  | GetProducts _ _ _ | GetProduct _ => false
  end.

(** The number of successful deletes in a trace. *)
Fixpoint count_deleted (trace : list response) : nat :=
  match trace with
  | [] => 0
  | Deleted _ :: trace' => S (count_deleted trace')
  | _ :: trace' => count_deleted trace'
  end.

(** The field constraints, read on a stored product. *)
Definition Product_ok (p : Product.t) : bool :=
  ProductBase_ok (Product.name p) (Product.price p).

(** The five sample products after the third was deleted and two more
    requests were served. *)
Definition after_delete : state :=
  (run [PostProduct (sample_input "f" true) 1006; GetProducts 0 10 None]
     (delete_product 3 five_products).2).2.

(** * Properties *)

(** ** The model on small inputs *)

Example five_products_db :
  fake_db five_products =
    [ (1, sample_product 1 "a" true); (2, sample_product 2 "b" true);
      (3, sample_product 3 "c" false); (4, sample_product 4 "d" true);
      (5, sample_product 5 "e" true) ]
  ∧ product_counter five_products = 6.
Proof. split; reflexivity. Qed.

Example str_int_42 : deleted_message 42 = "Product 42 deleted successfully"%string.
Proof. reflexivity. Qed.

Example slice_mid : py_slice [1; 2; 3; 4; 5] 2 4 = [3; 4].
Proof. reflexivity. Qed.

Example slice_past_end : py_slice [1; 2; 3; 4; 5] 10 12 = [].
Proof. reflexivity. Qed.

Example list_out_of_stock :
  (read_products 0 10 (Some false) five_products).1 = Ok [sample_product 3 "c" false].
Proof. reflexivity. Qed.

Example id_after_delete :
  (run [PostProduct (sample_input "a" true) 1001; DeleteProduct 1;
        PostProduct (sample_input "b" true) 1002; GetProduct 1] init).1
  = [Created (sample_product 1 "a" true);
     Deleted "Product 1 deleted successfully";
     Created (sample_product 2 "b" true);
     Failed (NotFound "Product not found")].
Proof. reflexivity. Qed.

(** ** Dictionary lemmas *)

Section dict_facts.
Context {V : Type}.
Implicit Types (k : Z) (v : V) (d : list (Z * V)).

Lemma get_None k d : PyDict.get k d = None ↔ k ∉ PyDict.keys d.
Proof.
  induction d as [|[k' v'] d IH]; simpl.
  - split; [intros _; apply not_elem_of_nil | done].
  - rewrite not_elem_of_cons. case_decide as Hk.
    + split; [done | intros [Hne _]; by destruct Hne].
    + rewrite IH. split; [intros; split; congruence | tauto].
Qed.

Lemma get_Some_key k v d : PyDict.get k d = Some v → k ∈ PyDict.keys d.
Proof.
  intros Hget. destruct (decide (k ∈ PyDict.keys d)) as [|Hn]; [done|].
  apply get_None in Hn. congruence.
Qed.

Lemma contains_true k d : PyDict.contains k d = true ↔ k ∈ PyDict.keys d.
Proof.
  unfold PyDict.contains. destruct (PyDict.get k d) eqn:E.
  - split; [intros _; by eapply get_Some_key | done].
  - apply get_None in E. split; [done | intros; contradiction].
Qed.

Lemma contains_false k d : PyDict.contains k d = false ↔ k ∉ PyDict.keys d.
Proof.
  rewrite <- contains_true. destruct (PyDict.contains k d); naive_solver.
Qed.

Lemma get_set_eq k v d : PyDict.get k (PyDict.set k v d) = Some v.
Proof.
  induction d as [|[k' v'] d IH]; simpl.
  - by rewrite decide_True.
  - case_decide; simpl; [by rewrite decide_True | by rewrite decide_False].
Qed.

Lemma get_set_ne k k' v d :
  k ≠ k' → PyDict.get k' (PyDict.set k v d) = PyDict.get k' d.
Proof.
  intros Hne. induction d as [|[k0 v0] d IH]; simpl.
  - by rewrite decide_False.
  - destruct (decide (k0 = k)) as [->|]; simpl.
    + by rewrite !decide_False.
    + by rewrite IH.
Qed.

(** Assigning to a key that is not in the dict appends the entry. *)
Lemma set_fresh k v d : k ∉ PyDict.keys d → PyDict.set k v d = d ++ [(k, v)].
Proof.
  induction d as [|[k' v'] d IH]; simpl; [done|].
  rewrite not_elem_of_cons. intros [Hne Hd].
  rewrite decide_False by done. by rewrite IH.
Qed.

(** Deleting a key that is present cuts its entry out and keeps the rest
    in place. *)
Lemma del_split k v d :
  PyDict.get k d = Some v →
  ∃ d1 d2, d = d1 ++ (k, v) :: d2 ∧ PyDict.del k d = d1 ++ d2 ∧ k ∉ PyDict.keys d1.
Proof.
  induction d as [|[k' v'] d IH]; simpl; [done|].
  case_decide as Hk.
  - intros [= ->]. subst k'. exists [], d. split_and!; [done..|apply not_elem_of_nil].
  - intros (d1 & d2 & -> & Hdel & Hfresh)%IH.
    exists ((k', v') :: d1), d2. rewrite Hdel. split_and!; [done..|].
    simpl. rewrite not_elem_of_cons. done.
Qed.

Lemma get_del_ne k k' d : k ≠ k' → PyDict.get k' (PyDict.del k d) = PyDict.get k' d.
Proof.
  intros Hne. induction d as [|[k0 v0] d IH]; simpl; [done|].
  destruct (decide (k0 = k)) as [->|]; simpl.
  - by rewrite decide_False.
  - by rewrite IH.
Qed.

Lemma keys_del_sublist k d : PyDict.keys (PyDict.del k d) `sublist_of` PyDict.keys d.
Proof.
  induction d as [|[k0 v0] d IH]; simpl; [done|].
  case_decide; simpl; [by apply sublist_cons | by apply sublist_skip].
Qed.

Lemma del_sublist k d : PyDict.del k d `sublist_of` d.
Proof.
  induction d as [|[k0 v0] d IH]; simpl; [done|].
  case_decide; simpl; [by apply sublist_cons | by apply sublist_skip].
Qed.

Lemma get_del_eq k d : PyDict.wf d → PyDict.get k (PyDict.del k d) = None.
Proof.
  unfold PyDict.wf. induction d as [|[k0 v0] d IH]; simpl; [done|].
  rewrite NoDup_cons. intros [Hk0 Hd].
  destruct (decide (k0 = k)) as [->|]; simpl.
  - by apply get_None.
  - rewrite decide_False by done. by apply IH.
Qed.

Lemma wf_del k d : PyDict.wf d → PyDict.wf (PyDict.del k d).
Proof. unfold PyDict.wf. intros. eapply sublist_NoDup; [done | apply keys_del_sublist]. Qed.

Lemma wf_set k v d : PyDict.wf d → PyDict.wf (PyDict.set k v d).
Proof.
  unfold PyDict.wf. induction d as [|[k0 v0] d IH]; simpl.
  - intros _. apply NoDup_singleton.
  - rewrite NoDup_cons. intros [Hk0 Hd].
    destruct (decide (k0 = k)) as [->|Hne]; simpl; rewrite NoDup_cons.
    + done.
    + split; [|by apply IH].
      intros Hin. apply Hk0.
      destruct (PyDict.get k0 d) eqn:E; [by eapply get_Some_key|].
      rewrite <- (get_set_ne k k0 v d) in E by done.
      apply get_None in E. contradiction.
Qed.
End dict_facts.

(** ** One request *)

Lemma Product_new_Some id now product :
  ProductBase_ok (ProductCreate.name product) (ProductCreate.price product) = true →
  Product_new id now product =
    Some (Product.mk id now (ProductCreate.name product)
            (ProductCreate.description product) (ProductCreate.price product)
            (ProductCreate.in_stock product)).
Proof. intros Hok. unfold Product_new. by rewrite Hok. Qed.

Lemma create_product_accepts product now st :
  ProductBase_ok (ProductCreate.name product) (ProductCreate.price product) = true →
  let p := Product.mk (product_counter st) now (ProductCreate.name product)
             (ProductCreate.description product) (ProductCreate.price product)
             (ProductCreate.in_stock product) in
  create_product product now st =
    (Ok p, {| fake_db := PyDict.set (product_counter st) p (fake_db st);
              product_counter := product_counter st + 1 |}).
Proof.
  intros Hok. unfold create_product. by rewrite Hok, Product_new_Some.
Qed.

Lemma create_product_rejects product now st :
  ProductBase_ok (ProductCreate.name product) (ProductCreate.price product) = false →
  create_product product now st = (Err ValidationError, st).
Proof. intros Hok. unfold create_product. by rewrite Hok. Qed.

Lemma handle_effect req st : effect st (handle req st).1 (handle req st).2.
Proof.
  destruct req as [skip limit in_stock|product_id|product now|product_id]; simpl.
  - unfold read_products, respond.
    destruct (_ && _); simpl; by constructor.
  - unfold read_product, respond.
    destruct (0 <? product_id); [|by constructor].
    destruct (negb _); [by constructor|].
    destruct (PyDict.get _ _); simpl; by constructor.
  - destruct (ProductBase_ok (ProductCreate.name product) (ProductCreate.price product)) eqn:Hok.
    + rewrite create_product_accepts by done. unfold respond; simpl.
      by apply effect_create.
    + rewrite create_product_rejects by done. by constructor.
  - unfold delete_product, respond.
    destruct (0 <? product_id); [|by constructor].
    destruct (PyDict.contains _ _) eqn:Hin; simpl; [|by constructor].
    by apply (effect_delete st product_id).
Qed.

Lemma store_inv_init : store_inv init.
Proof.
  split; simpl; [lia | | done | apply NoDup_nil_2].
  intros k Hk. by apply elem_of_nil in Hk.
Qed.

Lemma effect_store_inv st r st' : store_inv st → effect st r st' → store_inv st'.
Proof.
  intros [Hc Hkeys Hids Hwf] [r' _|p Hid|k msg Hin]; [done| |].
  - assert (product_counter st ∉ PyDict.keys (fake_db st)) as Hfresh.
    { intros ?%Hkeys. lia. }
    split; simpl.
    + lia.
    + intros k. rewrite set_fresh by done. unfold PyDict.keys.
      rewrite fmap_app, elem_of_app. simpl. rewrite list_elem_of_singleton.
      intros [?%Hkeys | ->]; lia.
    + intros k q. destruct (decide (product_counter st = k)) as [<-|Hne].
      * rewrite get_set_eq. by intros [= <-].
      * rewrite get_set_ne by done. apply Hids.
    + by apply wf_set.
  - split; simpl.
    + done.
    + intros k' Hk'. apply Hkeys.
      eapply elem_of_sublist; [done | apply keys_del_sublist].
    + intros k' q. destruct (decide (k = k')) as [<-|Hne].
      * by rewrite get_del_eq.
      * rewrite get_del_ne by done. apply Hids.
    + by apply wf_del.
Qed.

Lemma handle_store_inv req st : store_inv st → store_inv (handle req st).2.
Proof. intros Hinv. eapply effect_store_inv; [done | apply handle_effect]. Qed.

(** ** Sequences of requests *)

Lemma run_cons req reqs st :
  run (req :: reqs) st =
    ((handle req st).1 :: (run reqs (handle req st).2).1,
     (run reqs (handle req st).2).2).
Proof.
  simpl. destruct (handle req st) as [r st']. simpl.
  by destruct (run reqs st').
Qed.

Lemma run_store_inv reqs st : store_inv st → store_inv (run reqs st).2.
Proof.
  revert st. induction reqs as [|req reqs IH]; intros st Hinv; [done|].
  rewrite run_cons. simpl. by apply IH, handle_store_inv.
Qed.

(** Under the invariant the ids of the stored products are the keys they
    are stored under, in the same order. *)
Lemma ids_of_values (d : list (Z * Product.t)) :
  PyDict.wf d →
  (∀ k p, PyDict.get k d = Some p → Product.id p = k) →
  Product.id <$> PyDict.values d = PyDict.keys d.
Proof.
  unfold PyDict.wf, PyDict.values, PyDict.keys.
  induction d as [|[k0 p0] d IH]; simpl; [done|].
  rewrite NoDup_cons. intros [Hk0 Hd] Hids. f_equal.
  - apply Hids. by rewrite decide_True.
  - apply IH; [done|]. intros k p Hget. apply Hids.
    rewrite decide_False; [done|]. intros ->.
    apply Hk0. by eapply get_Some_key.
Qed.

(** C9.  Starting from the initial state, after any sequence of requests
    (create, get, list, delete, accepted or rejected) the counter is at
    least 1, every key of the store lies in [1, counter), and the product
    stored under a key carries that key as its id; hence the stored ids are
    pairwise distinct, positive and below the counter. *)
Theorem store_invariant_reachable (reqs : list request) :
  let st := (run reqs init).2 in
  1 ≤ product_counter st
  ∧ (∀ k, k ∈ PyDict.keys (fake_db st) → 1 ≤ k < product_counter st)
  ∧ (∀ k p, PyDict.get k (fake_db st) = Some p → Product.id p = k)
  ∧ NoDup (Product.id <$> PyDict.values (fake_db st))
  ∧ Forall (λ p, 1 ≤ Product.id p < product_counter st) (PyDict.values (fake_db st)).
Proof.
  intros st.
  destruct (run_store_inv reqs init store_inv_init) as [Hc Hkeys Hids Hwf].
  fold st in Hc, Hkeys, Hids, Hwf.
  assert (Product.id <$> PyDict.values (fake_db st) = PyDict.keys (fake_db st)) as Heq
    by by apply ids_of_values.
  split_and!; [done..| by rewrite Heq |].
  apply Forall_fmap with (f := Product.id) (P := λ k, 1 ≤ k < product_counter st).
  rewrite Heq. by apply Forall_forall.
Qed.

(** ** Identifier allocation *)

Lemma created_effect st r st' :
  effect st r st' →
  Product.id <$> created [r] = seqZ (product_counter st) (Z.of_nat (length (created [r])))
  ∧ product_counter st' = product_counter st + Z.of_nat (length (created [r])).
Proof.
  intros [r' Hr|p Hid|k msg Hin]; simpl.
  - destruct r'; simpl; try (split; [done | lia]). by destruct (Hr p).
  - rewrite Hid. split; [done | lia].
  - split; [done | lia].
Qed.

Lemma created_cons r trace : created (r :: trace) = created [r] ++ created trace.
Proof. by destruct r. Qed.

(** The ids handed out while serving [reqs] from [st] are the consecutive
    integers from the counter of [st] on. *)
Lemma run_created_ids reqs st :
  let n := Z.of_nat (length (created (run reqs st).1)) in
  Product.id <$> created (run reqs st).1 = seqZ (product_counter st) n
  ∧ product_counter (run reqs st).2 = product_counter st + n.
Proof.
  revert st. induction reqs as [|req reqs IH]; intros st.
  - simpl. split; [done | lia].
  - rewrite run_cons. cbn [fst snd].
    destruct (created_effect _ _ _ (handle_effect req st)) as [Hhd Hc].
    destruct (IH (handle req st).2) as [Htl Hc'].
    cbv zeta in Htl, Hc' |- *.
    rewrite created_cons, length_app, Nat2Z.inj_add, fmap_app.
    rewrite seqZ_app by lia. rewrite Hhd, Htl, Hc', Hc.
    split; [done | lia].
Qed.

(** C1.  Whatever requests are served from the initial state, the ids
    returned by the successful creates, in the order of the calls, are
    1, 2, 3, ...: each is strictly greater than every id returned before
    it, consecutive creates differ by one, no id is returned twice (deletes
    in between do not matter), and the counter is the next id to hand out. *)
Theorem create_ids_sequential (reqs : list request) :
  let ids := Product.id <$> created (run reqs init).1 in
  ids = seqZ 1 (Z.of_nat (length ids))
  ∧ (∀ i j a b, (i < j)%nat → ids !! i = Some a → ids !! j = Some b → a < b)
  ∧ NoDup ids
  ∧ product_counter (run reqs init).2 = 1 + Z.of_nat (length ids).
Proof.
  intros ids. destruct (run_created_ids reqs init) as [Hids Hc].
  cbv zeta in Hids, Hc. simpl in Hids, Hc.
  assert (ids = seqZ 1 (Z.of_nat (length ids))) as Heq.
  { unfold ids. by rewrite length_fmap. }
  split_and!.
  - done.
  - intros i j a b Hij. rewrite Heq, !lookup_seqZ. lia.
  - rewrite Heq. apply NoDup_seqZ.
  - unfold ids. by rewrite length_fmap.
Qed.

(** ** The store keeps creation order *)

Lemma values_effect st r st' :
  store_inv st → effect st r st' →
  PyDict.values (fake_db st') `sublist_of` PyDict.values (fake_db st) ++ created [r].
Proof.
  intros Hinv [r' _|p Hid|k msg Hin]; simpl.
  - by apply sublist_inserts_r.
  - rewrite set_fresh.
    + unfold PyDict.values. by rewrite fmap_app.
    + intros ?%(inv_keys _ Hinv). lia.
  - rewrite app_nil_r. apply fmap_sublist, del_sublist.
Qed.

Lemma run_values reqs st :
  store_inv st →
  PyDict.values (fake_db (run reqs st).2)
    `sublist_of` PyDict.values (fake_db st) ++ created (run reqs st).1.
Proof.
  revert st. induction reqs as [|req reqs IH]; intros st Hinv.
  - simpl. by rewrite app_nil_r.
  - rewrite run_cons. cbn [fst snd]. rewrite created_cons.
    etrans; [apply IH; by apply handle_store_inv|].
    rewrite (assoc_L (++)). apply sublist_app; [|done].
    apply values_effect; [done | apply handle_effect].
Qed.

(** ** Listing *)

(** For a non-negative start and length, [l[skip : skip + limit]] is the
    window of [limit] items after the first [skip]. *)
Lemma py_slice_window {A} (l : list A) (skip limit : Z) :
  0 ≤ skip → 0 ≤ limit →
  py_slice l skip (skip + limit) = take (Z.to_nat limit) (drop (Z.to_nat skip) l).
Proof.
  intros Hskip Hlimit. unfold py_slice, slice_index.
  destruct (Z.ltb_spec skip 0) as [|_]; [lia|].
  destruct (Z.ltb_spec (skip + limit) 0) as [|_]; [lia|].
  destruct (decide (Z.of_nat (length l) ≤ skip)) as [Hout|Hin].
  - rewrite !Z.min_r by lia.
    rewrite !drop_ge by lia. by rewrite !take_nil.
  - rewrite (Z.min_l skip) by lia.
    destruct (decide (skip + limit ≤ Z.of_nat (length l))) as [Hfit|Hover].
    + rewrite Z.min_l by lia. do 2 f_equal. lia.
    + rewrite Z.min_r by lia.
      rewrite !take_ge; [done | rewrite length_drop; lia..].
Qed.

(** The list comprehension keeps exactly the items on which the test holds. *)
Lemma in_stock_filter (b : bool) (l : list Product.t) :
  List.filter (λ item, Bool.eqb (Product.in_stock item) b) l
  = filter (λ item, Product.in_stock item = b) l.
Proof.
  induction l as [|p l IH]; [done|]. simpl. rewrite filter_cons, IH.
  destruct (Bool.eqb_spec (Product.in_stock p) b); by case_decide.
Qed.

Lemma selected_sublist in_stock l : selected in_stock l `sublist_of` l.
Proof. destruct in_stock; simpl; [apply sublist_filter | done]. Qed.

Lemma read_products_accepts skip limit in_stock st :
  0 ≤ skip → 1 ≤ limit ≤ 100 →
  read_products skip limit in_stock st =
    (Ok (take (Z.to_nat limit)
           (drop (Z.to_nat skip) (selected in_stock (PyDict.values (fake_db st))))), st).
Proof.
  intros Hskip [Hlo Hhi]. unfold read_products.
  destruct (Z.leb_spec 0 skip); [|lia].
  destruct (Z.leb_spec 1 limit); [|lia].
  destruct (Z.leb_spec limit 100); [|lia]. simpl.
  rewrite py_slice_window by lia.
  destruct in_stock as [b|]; simpl; [by rewrite in_stock_filter | done].
Qed.

(** C2.  For [skip >= 0] and [limit] in [1, 100], a listing succeeds and
    leaves the state alone.  With a filter [b] the sequence it paginates,
    [selected], is the order-preserving sub-sequence of the stored products
    made of exactly those whose [in_stock] is [b]; without a filter it is
    all stored products.  The result is the window of that sequence that
    starts at index [skip]: its item [i] is item [skip + i] of the selected
    sequence for every [i < limit], it has at most [limit] items, and it is
    empty when [skip] is at least the number of selected products. *)
Theorem read_products_window (skip limit : Z) (in_stock : option bool) (st : state) :
  0 ≤ skip → 1 ≤ limit ≤ 100 →
  let stored := PyDict.values (fake_db st) in
  let sel := selected in_stock stored in
  ∃ items,
    read_products skip limit in_stock st = (Ok items, st)
    ∧ sel `sublist_of` stored
    ∧ (∀ p, p ∈ sel ↔ p ∈ stored ∧ ∀ b, in_stock = Some b → Product.in_stock p = b)
    ∧ items = take (Z.to_nat limit) (drop (Z.to_nat skip) sel)
    ∧ (∀ i, (i < Z.to_nat limit)%nat → items !! i = sel !! (Z.to_nat skip + i)%nat)
    ∧ Z.of_nat (length items) ≤ limit
    ∧ (Z.of_nat (length sel) ≤ skip → items = []).
Proof.
  intros Hskip Hlimit stored sel. subst stored sel.
  eexists. split; [by apply read_products_accepts|].
  split_and!.
  - apply selected_sublist.
  - intros p. destruct in_stock as [b|]; simpl.
    + rewrite list_elem_of_filter. split.
      * intros [Hb Hp]. split; [done|]. by intros b' [= <-].
      * intros [Hp Hb]. split; [by apply Hb | done].
    + split; [intros Hp; split; [done | by intros b [=]] | by intros [Hp _]].
  - done.
  - intros i Hi. by rewrite lookup_take_lt, lookup_drop.
  - rewrite length_take. lia.
  - intros Hout. rewrite drop_ge by lia. by rewrite take_nil.
Qed.

Lemma read_products_window_witness :
  (read_products 2 2 None five_products).1
  = Ok [sample_product 3 "c" false; sample_product 4 "d" true]
  ∧ (read_products 10 2 None five_products).1 = Ok [].
Proof.
  destruct (read_products_window 2 2 None five_products)
    as (items & Hrun & _ & _ & Hitems & _); [lia | lia |].
  destruct (read_products_window 10 2 None five_products)
    as (items' & Hrun' & _ & _ & _ & _ & _ & Hempty); [lia | lia |].
  rewrite Hrun, Hrun'. simpl. split.
  - rewrite Hitems. reflexivity.
  - rewrite Hempty; [reflexivity | simpl; lia].
Defined.

(** ** Listing follows creation order *)

Section sorted_facts.
Context {A : Type} (R : relation A).

Lemma StronglySorted_sublist (l1 l2 : list A) :
  l1 `sublist_of` l2 → StronglySorted R l2 → StronglySorted R l1.
Proof.
  induction 1 as [|x l1 l2 Hsub IH|x l1 l2 Hsub IH]; [done| |].
  - rewrite !StronglySorted_cons. intros [Hall Hsorted]. split; [|by apply IH].
    rewrite Forall_forall in Hall |- *.
    intros y Hy. apply Hall. by eapply elem_of_sublist.
  - rewrite StronglySorted_cons. intros [_ Hsorted]. by apply IH.
Qed.

Lemma StronglySorted_lookup (l : list A) (i j : nat) (a b : A) :
  StronglySorted R l → (i < j)%nat → l !! i = Some a → l !! j = Some b → R a b.
Proof.
  intros Hsorted. revert i j.
  induction Hsorted as [|x l Hsorted IH Hall]; intros i j Hij Hi Hj; [done|].
  destruct j as [|j]; [lia|]. destruct i as [|i]; simpl in *.
  - injection Hi as <-. rewrite Forall_forall in Hall.
    apply Hall. by eapply list_elem_of_lookup_2.
  - apply (IH i j); [lia | done..].
Qed.
End sorted_facts.

Lemma StronglySorted_seqZ (m : Z) (n : nat) : StronglySorted Z.lt (seqZ m (Z.of_nat n)).
Proof.
  revert m. induction n as [|n IH]; intros m; [constructor|].
  rewrite seqZ_cons by lia. replace (Z.pred (Z.of_nat (S n))) with (Z.of_nat n) by lia.
  constructor; [apply IH|].
  apply Forall_seqZ. intros k Hk. lia.
Qed.

(** ** Creating *)

Lemma ProductBase_ok_spec (name : string) (price : float) :
  ProductBase_ok name price = true
  ↔ (1 ≤ String.length name ≤ 100)%nat ∧ PrimFloat.ltb PrimFloat.zero price = true.
Proof.
  unfold ProductBase_ok, name_ok, price_ok.
  rewrite !andb_true_iff, !Nat.leb_le. tauto.
Qed.

(** C4.  A create whose name is empty or longer than 100 characters, or
    whose price is not strictly greater than 0, is answered with a
    validation error, and the state it returns is the state it was given:
    neither the store nor the counter has changed. *)
Theorem create_product_invalid (product : ProductCreate.t) (now : datetime) (st : state) :
  ProductCreate.name product = ""%string
  ∨ (100 < String.length (ProductCreate.name product))%nat
  ∨ PrimFloat.ltb PrimFloat.zero (ProductCreate.price product) = false →
  create_product product now st = (Err ValidationError, st).
Proof.
  intros Hbad. apply create_product_rejects.
  destruct (ProductBase_ok _ _) eqn:Hok; [|done].
  apply ProductBase_ok_spec in Hok as [Hname Hprice].
  destruct Hbad as [Hempty | [Hlong | Hneg]].
  - rewrite Hempty in Hname. simpl in Hname. lia.
  - lia.
  - congruence.
Qed.

Lemma create_product_invalid_witness :
  create_product (ProductCreate.mk "" None 10%float true) 1006 five_products
    = (Err ValidationError, five_products)
  ∧ create_product (ProductCreate.mk "x" None 0%float true) 1006 five_products
    = (Err ValidationError, five_products)
  ∧ create_product (ProductCreate.mk "x" None (-5)%float true) 1006 five_products
    = (Err ValidationError, five_products).
Proof.
  split_and!; apply create_product_invalid; simpl.
  - left. reflexivity.
  - right. right. reflexivity.
  - right. right. reflexivity.
Defined.

(** C8.  In any state the service can reach, a create that succeeds
    returns a product carrying the counter's value as id, a value no stored
    product is filed under; the new store is the old one with that single
    entry appended, so every product stored before is still stored under
    its key with all fields as they were; and the counter has advanced by
    exactly one. *)
Theorem create_product_frame
    (reqs : list request) (product : ProductCreate.t) (now : datetime)
    (p : Product.t) (st' : state) :
  let st := (run reqs init).2 in
  create_product product now st = (Ok p, st') →
  Product.id p = product_counter st
  ∧ product_counter st' = product_counter st + 1
  ∧ (Product.id p ∉ PyDict.keys (fake_db st))
  ∧ fake_db st' = fake_db st ++ [(Product.id p, p)]
  ∧ (∀ k q, PyDict.get k (fake_db st) = Some q → PyDict.get k (fake_db st') = Some q)
  ∧ length (fake_db st') = S (length (fake_db st)).
Proof.
  intros st Hcreate.
  pose proof (run_store_inv reqs init store_inv_init) as Hinv. fold st in Hinv.
  destruct (ProductBase_ok (ProductCreate.name product) (ProductCreate.price product))
    eqn:Hok.
  2: { rewrite create_product_rejects in Hcreate by done. discriminate. }
  rewrite create_product_accepts in Hcreate by done.
  injection Hcreate as <- <-. simpl.
  assert (product_counter st ∉ PyDict.keys (fake_db st)) as Hfresh.
  { intros ?%(inv_keys _ Hinv). lia. }
  split_and!; [done..| by apply set_fresh | |].
  - intros k q Hget. rewrite get_set_ne; [done|].
    intros <-. apply Hfresh. by eapply get_Some_key.
  - rewrite set_fresh by done. rewrite length_app. simpl. lia.
Qed.

Lemma create_product_frame_witness :
  fake_db (create_product (sample_input "f" true) 1006 five_products).2
  = fake_db five_products ++ [(6, sample_product 6 "f" true)]
  ∧ product_counter (create_product (sample_input "f" true) 1006 five_products).2 = 7.
Proof.
  destruct (create_product_frame five_creates (sample_input "f" true) 1006
              (sample_product 6 "f" true)
              (create_product (sample_input "f" true) 1006 five_products).2)
    as (_ & Hcounter & _ & Hdb & _); [reflexivity|].
  split; [exact Hdb | exact Hcounter].
Defined.

(** ** Reading one product *)

Lemma read_product_absent product_id st :
  0 < product_id → product_id ∉ PyDict.keys (fake_db st) →
  read_product product_id st = (Err (NotFound "Product not found"), st).
Proof.
  intros Hpos Habs%contains_false. unfold read_product.
  destruct (Z.ltb_spec 0 product_id); [|lia]. by rewrite Habs.
Qed.

Lemma read_product_present product_id st p :
  0 < product_id → PyDict.get product_id (fake_db st) = Some p →
  read_product product_id st = (Ok p, st).
Proof.
  intros Hpos Hget. unfold read_product, PyDict.contains.
  destruct (Z.ltb_spec 0 product_id); [|lia]. by rewrite Hget.
Qed.

(** C5.  For a positive id that is not a key of the store, get answers
    "not found" and returns the state it was given (store and counter
    untouched).  For a positive id that is a key, get returns the product
    stored under it, again without touching the state. *)
Theorem read_product_spec (product_id : Z) (st : state) :
  0 < product_id →
  (product_id ∉ PyDict.keys (fake_db st) →
     read_product product_id st = (Err (NotFound "Product not found"), st))
  ∧ (product_id ∈ PyDict.keys (fake_db st) →
     ∃ p, PyDict.get product_id (fake_db st) = Some p
          ∧ read_product product_id st = (Ok p, st)).
Proof.
  intros Hpos. split.
  - by apply read_product_absent.
  - intros Hin. destruct (PyDict.get product_id (fake_db st)) as [p|] eqn:Hget.
    + exists p. split; [done | by apply read_product_present].
    + apply get_None in Hget. contradiction.
Qed.

Lemma read_product_spec_witness :
  read_product 99999 five_products = (Err (NotFound "Product not found"), five_products)
  ∧ ∃ p, PyDict.get 3 (fake_db five_products) = Some p
         ∧ read_product 3 five_products = (Ok p, five_products).
Proof.
  split.
  - apply (read_product_spec 99999 five_products); [lia|].
    apply contains_false. reflexivity.
  - apply (read_product_spec 3 five_products); [lia|].
    apply contains_true. reflexivity.
Defined.

(** C3.  In any state the service can reach, a create with a valid input
    (name of 1 to 100 characters, price above 0) succeeds, and a get with
    the returned product's id, issued on the state the create left, returns
    that very product: id, name, description, price, in_stock and created_at
    all agree. *)
Theorem create_then_read
    (reqs : list request) (product : ProductCreate.t) (now : datetime) :
  (1 ≤ String.length (ProductCreate.name product) ≤ 100)%nat →
  PrimFloat.ltb PrimFloat.zero (ProductCreate.price product) = true →
  let st := (run reqs init).2 in
  ∃ p st',
    create_product product now st = (Ok p, st')
    ∧ read_product (Product.id p) st' = (Ok p, st').
Proof.
  intros Hname Hprice st.
  pose proof (run_store_inv reqs init store_inv_init) as Hinv. fold st in Hinv.
  assert (ProductBase_ok (ProductCreate.name product) (ProductCreate.price product) = true)
    as Hok by by apply ProductBase_ok_spec.
  do 2 eexists. split; [by apply create_product_accepts|].
  apply read_product_present; simpl.
  - pose proof (inv_counter _ Hinv). lia.
  - apply get_set_eq.
Qed.

Lemma create_then_read_witness :
  ∃ p st',
    create_product (sample_input "f" true) 1006 five_products = (Ok p, st')
    ∧ read_product (Product.id p) st' = (Ok p, st').
Proof.
  apply (create_then_read five_creates (sample_input "f" true) 1006).
  - simpl. lia.
  - reflexivity.
Defined.

(** ** Deleting *)

(** C6.  For a positive id: when the id is not a key of the store, delete
    answers "not found" and returns the state it was given, so the store,
    its size included, is unchanged.  When the id is a key, delete answers
    with the confirmation message, cuts exactly that entry out of the store
    (the entries before and after it stay, in order, and every other key
    still maps to the same product), keeps the counter, and a get of the
    same id on the resulting state answers "not found". *)
Theorem delete_product_spec (product_id : Z) (st : state) :
  0 < product_id → PyDict.wf (fake_db st) →
  (product_id ∉ PyDict.keys (fake_db st) →
     delete_product product_id st = (Err (NotFound "Product not found"), st))
  ∧ (∀ p, PyDict.get product_id (fake_db st) = Some p →
     ∃ st' d1 d2,
       delete_product product_id st = (Ok (deleted_message product_id), st')
       ∧ fake_db st = d1 ++ (product_id, p) :: d2
       ∧ fake_db st' = d1 ++ d2
       ∧ product_counter st' = product_counter st
       ∧ (∀ k, k ≠ product_id → PyDict.get k (fake_db st') = PyDict.get k (fake_db st))
       ∧ read_product product_id st' = (Err (NotFound "Product not found"), st')).
Proof.
  intros Hpos Hwf. split.
  - intros Habs%contains_false. unfold delete_product.
    destruct (Z.ltb_spec 0 product_id); [|lia]. by rewrite Habs.
  - intros p Hget.
    destruct (del_split _ _ _ Hget) as (d1 & d2 & Hdb & Hdel & _).
    eexists _, d1, d2. split_and!.
    + unfold delete_product, PyDict.contains.
      destruct (Z.ltb_spec 0 product_id); [|lia]. by rewrite Hget.
    + done.
    + done.
    + done.
    + intros k Hk. simpl. by apply get_del_ne.
    + apply read_product_absent; [done|]. simpl.
      by apply get_None, get_del_eq.
Qed.

Lemma delete_product_spec_witness :
  delete_product 99999 five_products = (Err (NotFound "Product not found"), five_products)
  ∧ ∃ st',
      delete_product 3 five_products = (Ok "Product 3 deleted successfully"%string, st')
      ∧ length (fake_db st') = 4%nat
      ∧ read_product 3 st' = (Err (NotFound "Product not found"), st').
Proof.
  assert (PyDict.wf (fake_db five_products)) as Hwf.
  { exact (inv_wf _ (run_store_inv five_creates init store_inv_init)). }
  split.
  - apply (delete_product_spec 99999 five_products); [lia | exact Hwf |].
    apply contains_false. reflexivity.
  - destruct (delete_product_spec 3 five_products) as [_ Hpresent]; [lia | exact Hwf |].
    destruct (Hpresent (sample_product 3 "c" false)) as (st' & d1 & d2 & Hdel & Hdb & Hdb' & _ & _ & Hread);
      [reflexivity|].
    exists st'. split_and!; [exact Hdel | | exact Hread].
    apply (f_equal (@length _)) in Hdb. rewrite Hdb'.
    rewrite length_app in Hdb |- *. simpl in Hdb. lia.
Defined.

(** ** Extra keys in a create body *)

Section extra_fields.
Variable as_str : json → option string.
Variable as_float : json → option float.
Variable as_bool : json → option bool.

Lemma ProductCreate_validate_extra (body : gmap string json) (k : string) (v : json) :
  k ∉ ProductCreate_fields →
  ProductCreate_validate as_str as_float as_bool (<[k:=v]> body)
  = ProductCreate_validate as_str as_float as_bool body.
Proof.
  unfold ProductCreate_fields. rewrite !not_elem_of_cons.
  intros (Hname & Hdescription & Hprice & Hin_stock & _).
  unfold ProductCreate_validate. by rewrite !lookup_insert_ne.
Qed.

(** C10.  A key of the create body that is not one of the declared fields
    (an [id] or a [created_at] sent by the client, for instance) does not
    change the outcome of the create, whatever value it carries: the body
    is accepted with it exactly when it is accepted without it, and result
    and state are the same.  When the create succeeds the product returned
    has the counter's value as id and the time of the call as [created_at],
    and it is that product which is stored under the id. *)
Theorem extra_fields_ignored
    (body : gmap string json) (k : string) (v : json) (now : datetime) (st : state) :
  k ∉ ProductCreate_fields →
  post_products as_str as_float as_bool (<[k:=v]> body) now st
  = post_products as_str as_float as_bool body now st
  ∧ (∀ p st',
       post_products as_str as_float as_bool (<[k:=v]> body) now st = (Ok p, st') →
       Product.id p = product_counter st
       ∧ Product.created_at p = now
       ∧ PyDict.get (product_counter st) (fake_db st') = Some p).
Proof.
  intros Hextra. unfold post_products.
  rewrite ProductCreate_validate_extra by done. split; [done|].
  intros p st'.
  destruct (ProductCreate_validate as_str as_float as_bool body) as [product|];
    [|discriminate].
  destruct (ProductBase_ok (ProductCreate.name product) (ProductCreate.price product))
    eqn:Hok.
  - rewrite create_product_accepts by done. intros [= <- <-]. simpl.
    split_and!; [done..|apply get_set_eq].
  - rewrite create_product_rejects by done. discriminate.
Qed.
End extra_fields.

Lemma extra_fields_ignored_witness :
  post_products exact_str exact_float exact_bool
    (<["id" := JNumber 999%float]> sample_body) 1006 five_products
  = post_products exact_str exact_float exact_bool sample_body 1006 five_products
  ∧ (post_products exact_str exact_float exact_bool
       (<["id" := JNumber 999%float]> sample_body) 1006 five_products).1
    = Ok (sample_product 6 "f" true).
Proof.
  destruct (extra_fields_ignored exact_str exact_float exact_bool
              sample_body "id" (JNumber 999%float) 1006 five_products) as [Heq _].
  - unfold ProductCreate_fields. apply (bool_decide_unpack _). vm_compute. exact I.
  - split; [exact Heq|]. rewrite Heq. vm_compute. reflexivity.
Defined.

(** * Further properties of the endpoints *)

(** ** Outcomes *)

Lemma handle_outcome req st : outcome st req (handle req st).1 (handle req st).2.
Proof.
  destruct req as [skip limit in_stock|product_id|product now|product_id]; simpl.
  - destruct (read_products skip limit in_stock st) as [r st'] eqn:Hr.
    assert (st' = st) as ->.
    { unfold read_products in Hr. destruct (_ && _); by injection Hr. }
    unfold respond; simpl. destruct r as [items|e].
    + by apply outcome_listed.
    + apply outcome_failed. unfold read_products in Hr.
      destruct (_ && _); [discriminate | by injection Hr as <-].
  - unfold read_product, respond, PyDict.contains.
    destruct (Z.ltb_spec 0 product_id); [|by constructor].
    destruct (PyDict.get product_id (fake_db st)) as [p|] eqn:Hget; simpl.
    + by constructor.
    + by constructor.
  - destruct (ProductBase_ok (ProductCreate.name product) (ProductCreate.price product))
      eqn:Hok.
    + rewrite create_product_accepts by done. unfold respond; simpl.
      by apply outcome_created.
    + rewrite create_product_rejects by done. by constructor.
  - unfold delete_product, respond.
    destruct (Z.ltb_spec 0 product_id); [|by constructor].
    destruct (PyDict.contains _ _) eqn:Hin; simpl; by constructor.
Qed.

(** X1.  A request that is answered with an error (validation error or
    "not found", on any endpoint) returns the state it was given. *)
Theorem failed_request_keeps_state (req : request) (st : state) (e : error) :
  (handle req st).1 = Failed e → (handle req st).2 = st.
Proof.
  pose proof (handle_outcome req st) as Hout.
  destruct (handle req st) as [r st']. simpl in *.
  intros ->. by inversion Hout.
Qed.

Lemma failed_request_keeps_state_witness :
  (handle (DeleteProduct 99999) five_products).2 = five_products
  ∧ (handle (GetProducts (-1) 10 None) five_products).2 = five_products
  ∧ (handle (PostProduct (ProductCreate.mk "" None 10%float true) 1006) five_products).2
    = five_products.
Proof.
  split_and!.
  - apply (failed_request_keeps_state _ _ (NotFound "Product not found")). reflexivity.
  - apply (failed_request_keeps_state _ _ ValidationError). reflexivity.
  - apply (failed_request_keeps_state _ _ ValidationError). reflexivity.
Defined.

Lemma handle_read req st :
  is_write req = false →
  (handle req st).2 = st ∧ created [(handle req st).1] = [].
Proof.
  intros Hread. pose proof (handle_outcome req st) as Hout.
  destruct (handle req st) as [r st']. simpl in *.
  inversion Hout; subst; try discriminate Hread; done.
Qed.

(** X3.  Listing and get requests are transparent: serving a sequence of
    requests leaves the same state, and hands out the same products in the
    same order, as serving only its create and delete requests. *)
Theorem reads_are_transparent (reqs : list request) (st : state) :
  (run (List.filter is_write reqs) st).2 = (run reqs st).2
  ∧ created (run (List.filter is_write reqs) st).1 = created (run reqs st).1.
Proof.
  revert st. induction reqs as [|req reqs IH]; intros st; [done|].
  simpl List.filter. destruct (is_write req) eqn:Hw.
  - rewrite (run_cons req reqs), (run_cons req (List.filter is_write reqs)).
    cbn [fst snd]. destruct (IH (handle req st).2) as [Hst Hcreated].
    split; [done|].
    rewrite (created_cons _ (run reqs _).1), (created_cons _ (run (List.filter _ _) _).1).
    by rewrite Hcreated.
  - rewrite run_cons. cbn [fst snd]. rewrite (created_cons (handle req st).1).
    destruct (handle_read req st Hw) as [-> ->]. apply IH.
Qed.

(** ** What the store holds *)

Section dict_values.
Context {V : Type}.
Implicit Types (k : Z) (v : V) (d : list (Z * V)).

Lemma Forall_values_set (P : V → Prop) k v d :
  Forall P (PyDict.values d) → P v → Forall P (PyDict.values (PyDict.set k v d)).
Proof.
  unfold PyDict.values. intros Hd Hv.
  induction d as [|[k' v'] d IH]; simpl.
  - by repeat constructor.
  - apply Forall_cons in Hd as [Hv' Hd].
    case_decide; simpl; constructor; auto.
Qed.

Lemma Forall_values_del (P : V → Prop) k d :
  Forall P (PyDict.values d) → Forall P (PyDict.values (PyDict.del k d)).
Proof.
  rewrite !Forall_forall. intros Hd v Hv. apply Hd.
  eapply elem_of_sublist; [done|]. apply fmap_sublist, del_sublist.
Qed.

Lemma get_elem_of k v d : PyDict.wf d → (k, v) ∈ d → PyDict.get k d = Some v.
Proof.
  unfold PyDict.wf. induction d as [|[k' v'] d IH]; simpl.
  - intros _ Hin. by apply elem_of_nil in Hin.
  - rewrite NoDup_cons, elem_of_cons. intros [Hk' Hd] [[= -> ->]|Hin].
    + by rewrite decide_True.
    + rewrite decide_False; [by apply IH|].
      intros ->. apply Hk'. apply list_elem_of_fmap. by exists (k, v).
Qed.

Lemma length_del k d :
  PyDict.contains k d = true → S (length (PyDict.del k d)) = length d.
Proof.
  unfold PyDict.contains. destruct (PyDict.get k d) as [v|] eqn:Hget; [|done].
  intros _. destruct (del_split _ _ _ Hget) as (d1 & d2 & -> & -> & _).
  rewrite !length_app. simpl. lia.
Qed.
End dict_values.

Lemma handle_products_ok req st :
  Forall (λ p, Product_ok p = true) (PyDict.values (fake_db st)) →
  Forall (λ p, Product_ok p = true) (PyDict.values (fake_db (handle req st).2)).
Proof.
  intros Hst. pose proof (handle_outcome req st) as Hout.
  destruct (handle req st) as [r st']. simpl in *.
  inversion Hout; subst; simpl; try done.
  - by apply Forall_values_set.
  - by apply Forall_values_del.
Qed.

Lemma run_products_ok reqs st :
  Forall (λ p, Product_ok p = true) (PyDict.values (fake_db st)) →
  Forall (λ p, Product_ok p = true) (PyDict.values (fake_db (run reqs st).2)).
Proof.
  revert st. induction reqs as [|req reqs IH]; intros st Hst; [done|].
  rewrite run_cons. simpl. by apply IH, handle_products_ok.
Qed.

(** X4.  Whatever requests have been served since start-up, every product
    in the store has a name of 1 to 100 characters and a price strictly
    above 0. *)
Theorem stored_products_valid (reqs : list request) :
  Forall (λ p, (1 ≤ String.length (Product.name p) ≤ 100)%nat
               ∧ PrimFloat.ltb PrimFloat.zero (Product.price p) = true)
         (PyDict.values (fake_db (run reqs init).2)).
Proof.
  eapply Forall_impl; [apply (run_products_ok reqs init); by constructor|].
  intros p Hp. by apply ProductBase_ok_spec.
Qed.

(** ** Entries are never changed and never come back *)

Lemma handle_old_entry req st k q :
  store_inv st → k < product_counter st →
  product_counter st ≤ product_counter (handle req st).2
  ∧ (PyDict.get k (fake_db (handle req st).2) = Some q →
     PyDict.get k (fake_db st) = Some q).
Proof.
  intros Hinv Hk. pose proof (handle_outcome req st) as Hout.
  destruct (handle req st) as [r st']. simpl in *.
  inversion Hout; subst; simpl; try (split; [lia | done]).
  - split; [lia|]. rewrite get_set_ne by lia. done.
  - split; [lia|]. destruct (decide (product_id = k)) as [->|Hne].
    + rewrite get_del_eq by apply Hinv. done.
    + by rewrite get_del_ne.
Qed.

Lemma run_old_entry reqs st k q :
  store_inv st → k < product_counter st →
  PyDict.get k (fake_db (run reqs st).2) = Some q →
  PyDict.get k (fake_db st) = Some q.
Proof.
  revert st. induction reqs as [|req reqs IH]; intros st Hinv Hk; [done|].
  rewrite run_cons. simpl. intros Hget.
  destruct (handle_old_entry req st k q Hinv Hk) as [Hle Hold].
  apply Hold, IH; [by apply handle_store_inv | lia | done].
Qed.

(** X5.  There is no update in place and no resurrection: if, after more
    requests, the store holds a product under an id that had already been
    handed out earlier, then the store held that same product, equal in
    every field, under that id at the earlier moment too. *)
Theorem stored_products_never_change
    (reqs1 reqs2 : list request) (k : Z) (q : Product.t) :
  let st1 := (run reqs1 init).2 in
  let st2 := (run reqs2 st1).2 in
  k < product_counter st1 →
  PyDict.get k (fake_db st2) = Some q →
  PyDict.get k (fake_db st1) = Some q.
Proof.
  intros st1 st2 Hk Hget.
  apply (run_old_entry reqs2 st1); [|done..].
  apply run_store_inv, store_inv_init.
Qed.

Lemma stored_products_never_change_witness :
  PyDict.get 3 (fake_db five_products) = Some (sample_product 3 "c" false).
Proof.
  apply (stored_products_never_change five_creates
           [DeleteProduct 1; PostProduct (sample_input "f" true) 1006; GetProduct 3] 3).
  - simpl. lia.
  - reflexivity.
Defined.

(** X6.  A delete is final: once a delete of an id has succeeded, a get
    and a second delete of that id are answered "not found", however many
    requests (creates included) are served in between. *)
Theorem delete_is_final
    (reqs1 reqs2 : list request) (product_id : Z) (msg : string) (st' : state) :
  let st := (run reqs1 init).2 in
  delete_product product_id st = (Ok msg, st') →
  let st2 := (run reqs2 st').2 in
  read_product product_id st2 = (Err (NotFound "Product not found"), st2)
  ∧ delete_product product_id st2 = (Err (NotFound "Product not found"), st2).
Proof.
  intros st Hdel st2.
  pose proof (run_store_inv reqs1 init store_inv_init) as Hinv. fold st in Hinv.
  unfold delete_product in Hdel.
  destruct (Z.ltb_spec 0 product_id) as [Hpos|]; [|discriminate].
  destruct (PyDict.contains product_id (fake_db st)) eqn:Hin; [|discriminate].
  simpl in Hdel. injection Hdel as _ <-.
  set (st' := {| fake_db := PyDict.del product_id (fake_db st);
                 product_counter := product_counter st |}) in *.
  assert (store_inv st') as Hinv'.
  { eapply effect_store_inv; [exact Hinv|]. by apply (effect_delete st product_id ""). }
  assert (product_id < product_counter st') as Hlt.
  { apply contains_true in Hin. apply (inv_keys _ Hinv) in Hin. simpl. lia. }
  assert (product_id ∉ PyDict.keys (fake_db st2)) as Habs.
  { apply get_None. destruct (PyDict.get product_id (fake_db st2)) as [q|] eqn:Hget; [|done].
    apply (run_old_entry reqs2 st') in Hget; [|done..].
    simpl in Hget. rewrite get_del_eq in Hget by apply Hinv. done. }
  split; [by apply read_product_absent|].
  unfold delete_product. apply contains_false in Habs.
  destruct (Z.ltb_spec 0 product_id); [|lia]. by rewrite Habs.
Qed.

Lemma delete_is_final_witness :
  read_product 3 after_delete = (Err (NotFound "Product not found"), after_delete)
  ∧ delete_product 3 after_delete = (Err (NotFound "Product not found"), after_delete).
Proof.
  apply (delete_is_final five_creates
           [PostProduct (sample_input "f" true) 1006; GetProducts 0 10 None] 3
           "Product 3 deleted successfully").
  reflexivity.
Defined.

(** ** Size of the store *)

Lemma count_deleted_cons r trace :
  count_deleted (r :: trace) = (count_deleted [r] + count_deleted trace)%nat.
Proof. by destruct r. Qed.

Lemma handle_size req st :
  store_inv st →
  (length (fake_db (handle req st).2) + count_deleted [(handle req st).1]
   = length (fake_db st) + length (created [(handle req st).1]))%nat.
Proof.
  intros Hinv. pose proof (handle_outcome req st) as Hout.
  destruct (handle req st) as [r st']. simpl in *.
  inversion Hout; subst; simpl; try lia.
  - rewrite set_fresh.
    + rewrite length_app. simpl. lia.
    + intros ?%(inv_keys _ Hinv). lia.
  - match goal with H : PyDict.contains _ _ = true |- _ => apply length_del in H end.
    lia.
Qed.

Lemma run_size reqs st :
  store_inv st →
  (length (fake_db (run reqs st).2) + count_deleted (run reqs st).1
   = length (fake_db st) + length (created (run reqs st).1))%nat.
Proof.
  revert st. induction reqs as [|req reqs IH]; intros st Hinv; [simpl; lia|].
  rewrite run_cons. cbn [fst snd].
  rewrite count_deleted_cons, (created_cons _ (run reqs _).1), length_app.
  pose proof (handle_size req st Hinv).
  pose proof (IH _ (handle_store_inv req st Hinv)). lia.
Qed.

(** X7.  After any sequence of requests from start-up, the number of
    stored products is the number of successful creates minus the number of
    successful deletes; rejected and read requests do not count. *)
Theorem store_size (reqs : list request) :
  let trace := (run reqs init).1 in
  (length (fake_db (run reqs init).2) + count_deleted trace = length (created trace))%nat.
Proof. intros trace. apply (run_size reqs init store_inv_init). Qed.

(** ** Pages *)

(** X8.  Adjacent pages tile the listing: the page of [limit1] items at
    offset [skip] followed by the page of [limit2] items at offset
    [skip + limit1] is the page of [limit1 + limit2] items at offset [skip],
    with the same filter and store. *)
Theorem read_products_pages
    (skip limit1 limit2 : Z) (in_stock : option bool) (st : state) :
  0 ≤ skip → 1 ≤ limit1 → 1 ≤ limit2 → limit1 + limit2 ≤ 100 →
  ∃ page1 page2,
    read_products skip limit1 in_stock st = (Ok page1, st)
    ∧ read_products (skip + limit1) limit2 in_stock st = (Ok page2, st)
    ∧ read_products skip (limit1 + limit2) in_stock st = (Ok (page1 ++ page2), st).
Proof.
  intros Hskip H1 H2 Hsum. do 2 eexists.
  rewrite !read_products_accepts by lia. split_and!; [done..|].
  do 2 f_equal.
  replace (Z.to_nat (skip + limit1)) with (Z.to_nat skip + Z.to_nat limit1)%nat by lia.
  replace (Z.to_nat (limit1 + limit2)) with (Z.to_nat limit1 + Z.to_nat limit2)%nat by lia.
  by rewrite <- drop_drop, take_take_drop.
Qed.

Lemma read_products_pages_witness :
  ∃ page1 page2,
    read_products 1 2 None five_products = (Ok page1, five_products)
    ∧ read_products (1 + 2) 3 None five_products = (Ok page2, five_products)
    ∧ read_products 1 (2 + 3) None five_products = (Ok (page1 ++ page2), five_products).
Proof. apply (read_products_pages 1 2 3 None five_products); lia. Defined.

(** X9.  A page holds [min limit (n - skip)] items, where [n] is the number
    of products that pass the filter (none when [skip] is beyond [n]); so a
    page shorter than [limit] is the last one. *)
Theorem read_products_length (skip limit : Z) (in_stock : option bool) (st : state) :
  0 ≤ skip → 1 ≤ limit ≤ 100 →
  ∃ items,
    read_products skip limit in_stock st = (Ok items, st)
    ∧ Z.of_nat (length items)
      = Z.min limit
          (Z.max 0 (Z.of_nat (length (selected in_stock (PyDict.values (fake_db st)))) - skip)).
Proof.
  intros Hskip Hlimit. eexists. split; [by apply read_products_accepts|].
  rewrite length_take, length_drop. lia.
Qed.

Lemma read_products_length_witness :
  ∃ items,
    read_products 3 10 (Some true) five_products = (Ok items, five_products)
    ∧ Z.of_nat (length items) = 1.
Proof.
  destruct (read_products_length 3 10 (Some true) five_products)
    as (items & Hrun & Hlen); [lia | lia |].
  exists items. split; [exact Hrun|]. rewrite Hlen. reflexivity.
Defined.

(** ** Listing and get agree *)

Lemma get_stored (st : state) (p : Product.t) :
  store_inv st → p ∈ PyDict.values (fake_db st) →
  0 < Product.id p ∧ PyDict.get (Product.id p) (fake_db st) = Some p.
Proof.
  intros Hinv. unfold PyDict.values. rewrite list_elem_of_fmap.
  intros ([k p'] & -> & Hin). simpl.
  pose proof (get_elem_of _ _ _ (inv_wf _ Hinv) Hin) as Hget.
  pose proof (inv_ids _ Hinv _ _ Hget) as ->.
  split; [|done]. apply get_Some_key, (inv_keys _ Hinv) in Hget. lia.
Qed.

(** X10.  Every product a listing returns can be fetched: in any state the
    service can reach, a get with the id of a listed product returns that
    very product. *)
Theorem listed_products_can_be_read
    (reqs : list request) (skip limit : Z) (in_stock : option bool) :
  0 ≤ skip → 1 ≤ limit ≤ 100 →
  let st := (run reqs init).2 in
  ∃ items,
    read_products skip limit in_stock st = (Ok items, st)
    ∧ Forall (λ p, read_product (Product.id p) st = (Ok p, st)) items.
Proof.
  intros Hskip Hlimit st. eexists. split; [by apply read_products_accepts|].
  apply Forall_forall. intros p Hp.
  assert (p ∈ PyDict.values (fake_db st)) as Hstored.
  { eapply elem_of_sublist; [exact Hp|].
    etrans; [apply sublist_take|]. etrans; [apply sublist_drop|].
    apply selected_sublist. }
  apply get_stored in Hstored as [Hpos Hget];
    [|apply run_store_inv, store_inv_init].
  by apply read_product_present.
Qed.

Lemma listed_products_can_be_read_witness :
  ∃ items,
    read_products 0 10 (Some true) five_products = (Ok items, five_products)
    ∧ Forall (λ p, read_product (Product.id p) five_products = (Ok p, five_products)) items.
Proof. apply (listed_products_can_be_read five_creates 0 10 (Some true)); lia. Defined.

(** X11.  Every product a get returns shows up in the unfiltered listing:
    there is an offset at which the page of one item is that product. *)
Theorem read_product_is_listed (product_id : Z) (p : Product.t) (st : state) :
  read_product product_id st = (Ok p, st) →
  ∃ skip, 0 ≤ skip ∧ read_products skip 1 None st = (Ok [p], st).
Proof.
  unfold read_product, PyDict.contains.
  destruct (0 <? product_id); [|discriminate].
  destruct (PyDict.get product_id (fake_db st)) as [q|] eqn:Hget; [|discriminate].
  simpl. intros [= ->].
  destruct (del_split _ _ _ Hget) as (d1 & d2 & Hdb & _).
  exists (Z.of_nat (length d1)). split; [lia|].
  rewrite read_products_accepts by lia. simpl. do 2 f_equal.
  unfold PyDict.values. rewrite Hdb, fmap_app, Nat2Z.id.
  rewrite drop_app_length'; [done|]. by rewrite length_fmap.
Qed.

Lemma read_product_is_listed_witness :
  ∃ skip, 0 ≤ skip
    ∧ read_products skip 1 None five_products
      = (Ok [sample_product 4 "d" true], five_products).
Proof. apply (read_product_is_listed 4). reflexivity. Defined.

(** ** Validation is exact *)


(** X13.  The parameter checks are exact: a listing is answered with a
    validation error if and only if [skip < 0], [limit < 1] or
    [limit > 100]; a get and a delete are answered with a validation error
    if and only if the id is not positive. *)
Theorem parameter_validation_exact
    (skip limit product_id : Z) (in_stock : option bool) (st : state) :
  ((read_products skip limit in_stock st).1 = Err ValidationError
   ↔ skip < 0 ∨ limit < 1 ∨ 100 < limit)
  ∧ ((read_product product_id st).1 = Err ValidationError ↔ product_id ≤ 0)
  ∧ ((delete_product product_id st).1 = Err ValidationError ↔ product_id ≤ 0).
Proof.
  split_and!.
  - unfold read_products.
    destruct (Z.leb_spec 0 skip), (Z.leb_spec 1 limit), (Z.leb_spec limit 100);
      simpl; split; try done; try lia; intros; lia.
  - unfold read_product.
    destruct (Z.ltb_spec 0 product_id); simpl; [|split; [lia | done]].
    split; [|lia].
    destruct (negb _); [done|]. by destruct (PyDict.get _ _).
  - unfold delete_product.
    destruct (Z.ltb_spec 0 product_id); simpl; [|split; [lia | done]].
    split; [|lia]. by destruct (negb _).
Qed.

(** ** The stock filter splits the listing *)

(** X14.  When the whole store fits in one page, the in-stock listing and
    the out-of-stock listing together hold exactly the products of the
    unfiltered listing, each once. *)
Theorem read_products_partition (limit : Z) (st : state) :
  1 ≤ limit ≤ 100 → Z.of_nat (length (fake_db st)) ≤ limit →
  ∃ every yes no,
    read_products 0 limit None st = (Ok every, st)
    ∧ read_products 0 limit (Some true) st = (Ok yes, st)
    ∧ read_products 0 limit (Some false) st = (Ok no, st)
    ∧ every = PyDict.values (fake_db st)
    ∧ yes ++ no ≡ₚ every.
Proof.
  intros Hlimit Hfit.
  assert (length (PyDict.values (fake_db st)) = length (fake_db st)) as Hlen
    by apply length_fmap.
  do 3 eexists. rewrite !read_products_accepts by lia.
  split_and!; [done..| |]; simpl; rewrite !drop_0.
  - rewrite take_ge by lia. done.
  - rewrite !take_ge.
    + rewrite <- (filter_app_complement (λ p, Product.in_stock p = true)
                    (PyDict.values (fake_db st))) at 3.
      f_equiv. apply reflexive_eq, list_filter_iff.
      intros p. by destruct (Product.in_stock p).
    + lia.
    + pose proof (length_filter (λ p, Product.in_stock p = false)
                    (PyDict.values (fake_db st))). lia.
    + pose proof (length_filter (λ p, Product.in_stock p = true)
                    (PyDict.values (fake_db st))). lia.
Qed.

Lemma read_products_partition_witness :
  ∃ every yes no,
    read_products 0 10 None five_products = (Ok every, five_products)
    ∧ read_products 0 10 (Some true) five_products = (Ok yes, five_products)
    ∧ read_products 0 10 (Some false) five_products = (Ok no, five_products)
    ∧ every = PyDict.values (fake_db five_products)
    ∧ yes ++ no ≡ₚ every.
Proof. apply (read_products_partition 10 five_products); simpl; lia. Defined.

(** ** Create bodies: where the fields of the product come from *)

Section body_fields.
Variable as_str : json → option string.
Variable as_float : json → option float.
Variable as_bool : json → option bool.

(** X16.  The product a create returns is built from the body's own
    fields: its name and price are the converted values of the [name] and
    [price] keys; [in_stock] is [True] when the body has no such key, and
    [description] is [None] when the key is missing or [null]. *)
Theorem body_defaults
    (body : gmap string json) (now : datetime) (st st' : state) (p : Product.t) :
  post_products as_str as_float as_bool body now st = (Ok p, st') →
  (body !! "name"%string ≫= as_str = Some (Product.name p))
  ∧ (body !! "price"%string ≫= as_float = Some (Product.price p))
  ∧ (body !! "in_stock"%string = None → Product.in_stock p = true)
  ∧ (body !! "description"%string = None ∨ body !! "description"%string = Some JNull →
     Product.description p = None).
Proof.
  unfold post_products, ProductCreate_validate.
  destruct (body !! "name"%string ≫= as_str) as [name|]; simpl; [|discriminate].
  destruct (match body !! "description"%string with
            | Some JNull | None => Some None
            | Some v => Some <$> as_str v
            end) as [description|] eqn:Hdescription; simpl; [|discriminate].
  destruct (body !! "price"%string ≫= as_float) as [price|]; simpl; [|discriminate].
  destruct (match body !! "in_stock"%string with
            | Some v => as_bool v
            | None => Some true
            end) as [in_stock|] eqn:Hin_stock; simpl; [|discriminate].
  destruct (ProductBase_ok name price) eqn:Hok; [|discriminate].
  rewrite create_product_accepts by done. simpl. intros [= <- <-]. simpl.
  split_and!; [done..| |].
  - intros Hnone. rewrite Hnone in Hin_stock. by injection Hin_stock as <-.
  - intros [Hnone|Hnull]; [rewrite Hnone in Hdescription|rewrite Hnull in Hdescription];
      by injection Hdescription as <-.
Qed.
End body_fields.

Lemma body_defaults_witness :
  Product.in_stock (sample_product 6 "f" true) = true
  ∧ Product.description (sample_product 6 "f" true) = None.
Proof.
  destruct (body_defaults exact_str exact_float exact_bool sample_body 1006
              five_products
              (post_products exact_str exact_float exact_bool sample_body 1006
                 five_products).2
              (sample_product 6 "f" true))
    as (_ & _ & Hin_stock & Hdescription).
  - vm_compute. reflexivity.
  - split; [apply Hin_stock | apply Hdescription; left]; vm_compute; reflexivity.
Defined.

(** ** A listing is the store, and the store is the creation history *)

Lemma still_stored_values (st : state) :
  store_inv st → still_stored st (PyDict.values (fake_db st)) = PyDict.values (fake_db st).
Proof.
  intros Hinv. unfold still_stored.
  assert (Forall (λ p, Product.id p ∈ PyDict.keys (fake_db st))
            (PyDict.values (fake_db st))) as Hall.
  { apply Forall_forall. intros p Hp.
    apply (get_stored st p Hinv) in Hp as [_ Hget]. by eapply get_Some_key. }
  induction Hall as [|p l Hp Hl IH]; [done|].
  by rewrite filter_cons_True, IH.
Qed.

(** One request changes the store's values the way it changes the history,
    up to products that are gone for good afterwards. *)
Lemma handle_still_stored req st (P : Product.t → Prop) `{!∀ p, Decision (P p)} :
  store_inv st →
  (∀ k p, PyDict.get k (fake_db st) = Some p →
          PyDict.get k (fake_db (handle req st).2) = None → ¬ P p) →
  filter P (PyDict.values (fake_db (handle req st).2))
  = filter P (PyDict.values (fake_db st) ++ created [(handle req st).1]).
Proof.
  intros Hinv Hgone. pose proof (handle_outcome req st) as Hout.
  destruct (handle req st) as [r st1]. simpl in *.
  inversion Hout; subst; simpl in *; rewrite ?app_nil_r; try done.
  - rewrite set_fresh.
    + unfold PyDict.values. by rewrite fmap_app.
    + intros ?%(inv_keys _ Hinv). lia.
  - match goal with H : PyDict.contains _ _ = true |- _ => rename H into Hin end.
    unfold PyDict.contains in Hin.
    destruct (PyDict.get product_id (fake_db st)) as [p0|] eqn:Hget; [|done].
    destruct (del_split _ _ _ Hget) as (d1 & d2 & Hdb & Hdel & _).
    assert (¬ P p0) as Hp0.
    { apply (Hgone product_id); [done|]. apply get_del_eq, Hinv. }
    rewrite Hdel, Hdb. unfold PyDict.values.
    rewrite !fmap_app, !filter_app. simpl. by rewrite filter_cons_False.
Qed.

Lemma run_still_stored reqs st :
  store_inv st →
  PyDict.values (fake_db (run reqs st).2)
  = still_stored (run reqs st).2 (PyDict.values (fake_db st) ++ created (run reqs st).1).
Proof.
  revert st. induction reqs as [|req reqs IH]; intros st Hinv.
  - simpl. by rewrite app_nil_r, still_stored_values.
  - rewrite run_cons. cbn [fst snd].
    pose proof (handle_store_inv req st Hinv) as Hinv1.
    rewrite (IH _ Hinv1) at 1. unfold still_stored.
    rewrite (created_cons _ (run reqs _).1), (assoc_L (++)).
    rewrite !(filter_app _ _ (created (run reqs _).1)). f_equal.
    apply handle_still_stored; [done|].
    intros k p Hget Hgone Hlive.
    pose proof (inv_ids _ Hinv _ _ Hget) as Hid. rewrite Hid in Hlive.
    assert (k < product_counter (handle req st).2) as Hk.
    { destruct (handle_old_entry req st k p Hinv) as [Hle _].
      - apply get_Some_key, (inv_keys _ Hinv) in Hget. lia.
      - apply get_Some_key, (inv_keys _ Hinv) in Hget. lia. }
    destruct (PyDict.get k (fake_db (run reqs (handle req st).2).2)) as [q|] eqn:Hlater.
    + apply (run_old_entry reqs _ k q Hinv1 Hk) in Hlater. congruence.
    + apply get_None in Hlater. contradiction.
Qed.

(** C7.  After any sequence of requests, the store holds the products
    created so far that have not been deleted, in the order of their
    creation, and a listing with valid parameters returns the window of
    that sequence (filtered first when a filter is given); with no filter,
    no offset and a limit that covers the store it returns all stored
    products.  Hence the result is a sub-sequence of the creation history
    (in which no product occurs twice): whenever two products are both in
    the result, the one created first comes first, that is, ids increase
    strictly along the result, for any window and filter. *)
Theorem read_products_creation_order
    (reqs : list request) (skip limit : Z) (in_stock : option bool) :
  0 ≤ skip → 1 ≤ limit ≤ 100 →
  let history := created (run reqs init).1 in
  let st := (run reqs init).2 in
  let stored := PyDict.values (fake_db st) in
  ∃ items,
    read_products skip limit in_stock st = (Ok items, st)
    ∧ stored = still_stored st history
    ∧ items = take (Z.to_nat limit) (drop (Z.to_nat skip) (selected in_stock stored))
    ∧ (in_stock = None → skip = 0 → Z.of_nat (length stored) ≤ limit → items = stored)
    ∧ items `sublist_of` history
    ∧ NoDup history
    ∧ (∀ i j p q, (i < j)%nat → items !! i = Some p → items !! j = Some q →
         Product.id p < Product.id q).
Proof.
  intros Hskip Hlimit history st stored. subst history st stored.
  eexists. split; [by apply read_products_accepts|].
  destruct (run_created_ids reqs init) as [Hids _]. cbv zeta in Hids.
  pose proof (StronglySorted_seqZ (product_counter init)
                (length (created (run reqs init).1))) as Hsorted.
  rewrite <- Hids in Hsorted.
  pose proof (run_still_stored reqs init store_inv_init) as Hstored.
  simpl in Hstored.
  match goal with |- _ ∧ ?items = _ ∧ _ => assert
    (items `sublist_of` created (run reqs init).1) as Hsub end.
  { etrans; [apply sublist_take|]. etrans; [apply sublist_drop|].
    etrans; [apply selected_sublist|].
    rewrite Hstored at 1. apply sublist_filter. }
  split_and!; [done | done | | done | |].
  - intros -> -> Hfit. simpl. rewrite drop_0. apply take_ge. lia.
  - eapply (NoDup_fmap_1 Product.id). rewrite Hids. apply NoDup_seqZ.
  - intros i j p q Hij Hp Hq.
    match type of Hp with ?items !! _ = _ =>
      apply (StronglySorted_lookup Z.lt (Product.id <$> items) i j) end.
    + eapply StronglySorted_sublist; [|done]. by apply fmap_sublist.
    + done.
    + by rewrite list_lookup_fmap, Hp.
    + by rewrite list_lookup_fmap, Hq.
Qed.

Lemma read_products_creation_order_witness :
  read_products 0 10 (Some true) after_delete
  = (Ok [sample_product 1 "a" true; sample_product 2 "b" true;
         sample_product 4 "d" true; sample_product 5 "e" true;
         sample_product 6 "f" true], after_delete)
  ∧ PyDict.values (fake_db after_delete)
    = [sample_product 1 "a" true; sample_product 2 "b" true;
       sample_product 4 "d" true; sample_product 5 "e" true;
       sample_product 6 "f" true].
Proof.
  destruct (read_products_creation_order
              (five_creates ++ [DeleteProduct 3; PostProduct (sample_input "f" true) 1006;
                                GetProducts 0 10 None]) 0 10 (Some true))
    as (items & Hrun & Hstored & Hitems & _); [lia | lia |].
  split.
  - etrans; [exact Hrun|]. rewrite Hitems. reflexivity.
  - etrans; [exact Hstored|]. reflexivity.
Defined.
